(** * cpp_nodiscard_errors.cpp: status-returning operations and their driver

    The translation unit declares a four-member scoped enumeration
    [ErrorCode], three operations that return it, and [main], which calls
    the three operations in sequence and checks the first two results.

    The operations are embedded as computations in a state monad over an
    arbitrary world [W] (whatever a call could observe or change), so that
    "returns OK" and "has no side effect" are separate, checkable facts.
    [main] is embedded over a table of operations: once for any table
    ([main_with], used for statements about hypothetical results) and once
    for the operations of the file ([main]).  Running the driver yields its
    return value, the final world and the sequence of calls it made. *)

From Stdlib Require Import ZArith String List Bool Lia.
Import ListNotations.

Local Open Scope string_scope.
Local Open Scope list_scope.
Local Open Scope Z_scope.

(** ** Data *)

(** [enum class ErrorCode { OK, Fatal, System, FileIssue }]. *)
Inductive ErrorCode : Type :=
| OK
| Fatal
| System
| FileIssue.

(** The enumerators carry the default underlying values 0, 1, 2, 3. *)
Definition underlying (e : ErrorCode) : Z :=
  match e with
  | OK => 0
  | Fatal => 1
  | System => 2
  | FileIssue => 3
  end.

(** The built-in [==] and [!=] of a scoped enumeration compare the
    underlying values. *)
Definition ErrorCode_eq (a b : ErrorCode) : bool :=
  Z.eqb (underlying a) (underlying b).

Definition ErrorCode_ne (a b : ErrorCode) : bool :=
  negb (ErrorCode_eq a b).

(** [std::string_view]: a sequence of characters. *)
Definition string_view : Type := string.

(** ** The monad of an operation: state passing over a world [W] *)

Module St.

Definition t (W A : Type) : Type := W -> A * W.

Definition ret {W A : Type} (a : A) : t W A :=
  fun w => (a, w).

(** The value an operation returns, and the world it leaves. *)
Definition result {W A : Type} (m : t W A) (w : W) : A := fst (m w).
Definition after {W A : Type} (m : t W A) (w : W) : W := snd (m w).

End St.

(** ** The three operations *)

Section Operations.

Context {W : Type}.

(** [ErrorCode OpenFile(std::string_view fileName) { return ErrorCode::OK; }] *)
Definition OpenFile (fileName : string_view) : St.t W ErrorCode :=
  St.ret OK.

(** [ErrorCode SendEmail(std::string_view sendto, std::string_view text)
    { return ErrorCode::OK; }] *)
Definition SendEmail (sendto text : string_view) : St.t W ErrorCode :=
  St.ret OK.

(** [ErrorCode SystemCall(std::string_view text) { return ErrorCode::OK; }] *)
Definition SystemCall (text : string_view) : St.t W ErrorCode :=
  St.ret OK.

End Operations.

(** ** The driver *)

(** A call made by the driver, with its arguments. *)
Inductive Call : Type :=
| CallOpenFile (fileName : string_view)
| CallSendEmail (sendto text : string_view)
| CallSystemCall (text : string_view).

(** The operation a call goes to, and how often a log invokes it. *)
Inductive Operation : Type :=
| OpOpenFile
| OpSendEmail
| OpSystemCall.

Definition callee (c : Call) : Operation :=
  match c with
  | CallOpenFile _ => OpOpenFile
  | CallSendEmail _ _ => OpSendEmail
  | CallSystemCall _ => OpSystemCall
  end.

Definition Operation_eqb (a b : Operation) : bool :=
  match a, b with
  | OpOpenFile, OpOpenFile => true
  | OpSendEmail, OpSendEmail => true
  | OpSystemCall, OpSystemCall => true
  | _, _ => false
  end.

Definition invocations (op : Operation) (log : list Call) : nat :=
  length (filter (fun c => Operation_eqb (callee c) op) log).

(** A table of operations with the signatures of the file. *)
Record Ops (W : Type) : Type := mkOps {
  opOpenFile : string_view -> St.t W ErrorCode;
  opSendEmail : string_view -> string_view -> St.t W ErrorCode;
  opSystemCall : string_view -> St.t W ErrorCode
}.

Arguments mkOps {W} _ _ _.
Arguments opOpenFile {W} _ _ _.
Arguments opSendEmail {W} _ _ _ _.
Arguments opSystemCall {W} _ _ _.

(** What a run of the driver leaves behind. *)
Record Outcome (W A : Type) : Type := mkOutcome {
  value : A;
  world : W;
  calls : list Call
}.

Arguments mkOutcome {W A} _ _ _.
Arguments value {W A} _.
Arguments world {W A} _.
Arguments calls {W A} _.

Module Run.

(** State passing plus a log of the calls made, in order. *)
Definition t (W A : Type) : Type := W -> Outcome W A.

Definition ret {W A : Type} (a : A) : t W A :=
  fun w => mkOutcome a w [].

Definition bind {W A B : Type} (m : t W A) (k : A -> t W B) : t W B :=
  fun w =>
    let o := m w in
    let o' := k (value o) (world o) in
    mkOutcome (value o') (world o') (calls o ++ calls o').

Definition dispatch {W : Type} (ops : Ops W) (c : Call) : St.t W ErrorCode :=
  match c with
  | CallOpenFile fileName => opOpenFile ops fileName
  | CallSendEmail sendto text => opSendEmail ops sendto text
  | CallSystemCall text => opSystemCall ops text
  end.

(** One call: run the operation on the current world and log the call. *)
Definition call {W : Type} (ops : Ops W) (c : Call) : t W ErrorCode :=
  fun w => let (r, w') := dispatch ops c w in mkOutcome r w' [c].

End Run.

Declare Scope run_scope.
Delimit Scope run_scope with run.

Notation "x <- m ;; k" := (Run.bind m (fun x => k))
  (at level 61, m at next level, right associativity) : run_scope.
Notation "m ;; k" := (Run.bind m (fun _ => k))
  (at level 61, right associativity) : run_scope.

Section Driver.

Context {W : Type}.
Variable ops : Ops W.

(** [[
    int main()
    {
        if (OpenFile("test.txt") != ErrorCode::OK)
            return 1;
        if (SendEmail("joe", "hello") != ErrorCode::OK)
            return 1;
        SystemCall("cd ..");
    }
    ]]
    Control that flows off the end of [main] returns 0. *)
Definition main_with : Run.t W Z :=
  (r <- Run.call ops (CallOpenFile "test.txt") ;;
   if ErrorCode_ne r OK then Run.ret 1 else
   r <- Run.call ops (CallSendEmail "joe" "hello") ;;
   if ErrorCode_ne r OK then Run.ret 1 else
   Run.call ops (CallSystemCall "cd ..") ;;
   Run.ret 0)%run.

(** The three calls of a run that reaches them, each on the world its
    predecessor left. *)
Definition step_OpenFile : St.t W ErrorCode :=
  opOpenFile ops "test.txt".

Definition step_SendEmail : St.t W ErrorCode :=
  fun w => opSendEmail ops "joe" "hello" (St.after step_OpenFile w).

Definition step_SystemCall : St.t W ErrorCode :=
  fun w => opSystemCall ops "cd .." (St.after step_SendEmail w).

End Driver.

(** The operations of the file, as a table. *)
Definition stubs (W : Type) : Ops W :=
  mkOps OpenFile SendEmail SystemCall.

(** [main] of the file: the driver over the operations of the file. *)
Definition main {W : Type} : Run.t W Z :=
  main_with (stubs W).

(** ** The process as a world

    The state of the process that a run could show to its environment: the
    characters written so far to the two standard streams. *)
Record Process : Type := mkProcess {
  stdout : string;
  stderr : string
}.

(** A process that has written nothing yet. *)
Definition fresh_process : Process :=
  mkProcess EmptyString EmptyString.

(** ** Hypothetical operations

    Operations with the signatures of the file but another behaviour; they
    serve as concrete scenarios for the statements about [main_with]. *)
Module Scenario.

(** An [OpenFile] that reports [FileIssue] and complains on [stderr]. *)
Definition OpenFile_missing (fileName : string_view) : St.t Process ErrorCode :=
  fun p => (FileIssue, mkProcess (stdout p) (stderr p ++ fileName)).

(** A [SendEmail] that reports [Fatal]. *)
Definition SendEmail_refused (sendto text : string_view) : St.t Process ErrorCode :=
  fun p => (Fatal, p).

(** A [SystemCall] that reports [System] and echoes its command. *)
Definition SystemCall_loud (text : string_view) : St.t Process ErrorCode :=
  fun p => (System, mkProcess (stdout p ++ text) (stderr p)).

Definition open_fails : Ops Process :=
  mkOps OpenFile_missing SendEmail SystemCall.

Definition send_fails : Ops Process :=
  mkOps OpenFile SendEmail_refused SystemCall.

Definition system_fails : Ops Process :=
  mkOps OpenFile SendEmail SystemCall_loud.

End Scenario.

(** ** Replaying a log

    The world reached from [w] by making the calls of [log] in order, each
    through the table [ops]. *)
Definition replay {W : Type} (ops : Ops W) (log : list Call) (w : W) : W :=
  fold_left (fun w' c => St.after (Run.dispatch ops c) w') log w.

(** The three calls that [main] contains, in program order. *)
Definition program_calls : list Call :=
  [CallOpenFile "test.txt"; CallSendEmail "joe" "hello"; CallSystemCall "cd .."].

(** Further hypothetical operations. *)
Module Failures.

(** An [OpenFile] that reports [Fatal] and complains on [stderr]. *)
Definition OpenFile_crashed (fileName : string_view) : St.t Process ErrorCode :=
  fun p => (Fatal, mkProcess (stdout p) (stderr p ++ "fatal")).

(** A [SendEmail] that reports [System]. *)
Definition SendEmail_down (sendto text : string_view) : St.t Process ErrorCode :=
  fun p => (System, p).

Definition open_crashes : Ops Process :=
  mkOps OpenFile_crashed SendEmail_down SystemCall.

End Failures.

(** * Properties *)

(** ** Comparison of status values *)

Lemma underlying_inj (a b : ErrorCode) : underlying a = underlying b -> a = b.
Proof. destruct a, b; simpl; intros H; try reflexivity; discriminate H. Qed.

Lemma ErrorCode_eq_spec (a b : ErrorCode) : reflect (a = b) (ErrorCode_eq a b).
Proof.
  unfold ErrorCode_eq.
  destruct (Z.eqb_spec (underlying a) (underlying b)) as [E | N]; constructor.
  - now apply underlying_inj.
  - intros ->. now apply N.
Qed.

Lemma ErrorCode_ne_true_iff (a b : ErrorCode) : ErrorCode_ne a b = true <-> a <> b.
Proof.
  unfold ErrorCode_ne.
  destruct (ErrorCode_eq_spec a b) as [E | N]; simpl; split; intros H;
    try discriminate; try reflexivity; try assumption.
  now elim H.
Qed.

Lemma ErrorCode_ne_false_iff (a b : ErrorCode) : ErrorCode_ne a b = false <-> a = b.
Proof.
  unfold ErrorCode_ne.
  destruct (ErrorCode_eq_spec a b) as [E | N]; simpl; split; intros H;
    try discriminate; try reflexivity; try assumption.
  now elim N.
Qed.

Lemma ErrorCode_ne_refl (a : ErrorCode) : ErrorCode_ne a a = false.
Proof. now apply ErrorCode_ne_false_iff. Qed.

(** ** The driver, case by case *)

Section DriverCases.

Context {W : Type}.
Variable ops : Ops W.
Variable w : W.

(** The status values and worlds that the three calls would give. *)
Let r1 := St.result (step_OpenFile ops) w.
Let w1 := St.after (step_OpenFile ops) w.
Let r2 := St.result (step_SendEmail ops) w.
Let w2 := St.after (step_SendEmail ops) w.
Let w3 := St.after (step_SystemCall ops) w.

(** [main_with], with the monad unfolded: the three ways through it. *)
Lemma main_with_unfold :
  main_with ops w =
  if ErrorCode_ne r1 OK then
    mkOutcome 1 w1 [CallOpenFile "test.txt"]
  else if ErrorCode_ne r2 OK then
    mkOutcome 1 w2 [CallOpenFile "test.txt"; CallSendEmail "joe" "hello"]
  else
    mkOutcome 0 w3 [CallOpenFile "test.txt"; CallSendEmail "joe" "hello";
                    CallSystemCall "cd .."].
Proof.
  subst r1 w1 r2 w2 w3.
  unfold main_with, step_SystemCall, step_SendEmail, step_OpenFile,
    St.result, St.after, Run.bind, Run.call, Run.ret, Run.dispatch.
  destruct (opOpenFile ops "test.txt" w) as [a wa]; simpl.
  destruct (ErrorCode_ne a OK); simpl; [reflexivity|].
  destruct (opSendEmail ops "joe" "hello" wa) as [b wb]; simpl.
  destruct (ErrorCode_ne b OK); simpl; [reflexivity|].
  destruct (opSystemCall ops "cd .." wb) as [c wc]; simpl.
  reflexivity.
Qed.

Lemma main_with_OpenFile_fails :
  r1 <> OK ->
  main_with ops w = mkOutcome 1 w1 [CallOpenFile "test.txt"].
Proof.
  intros H. rewrite main_with_unfold. fold r1.
  apply ErrorCode_ne_true_iff in H. now rewrite H.
Qed.

Lemma main_with_SendEmail_fails :
  r1 = OK -> r2 <> OK ->
  main_with ops w =
  mkOutcome 1 w2 [CallOpenFile "test.txt"; CallSendEmail "joe" "hello"].
Proof.
  intros H1 H2. rewrite main_with_unfold. fold r1 r2.
  apply ErrorCode_ne_false_iff in H1. apply ErrorCode_ne_true_iff in H2.
  now rewrite H1, H2.
Qed.

Lemma main_with_all_OK :
  r1 = OK -> r2 = OK ->
  main_with ops w =
  mkOutcome 0 w3 [CallOpenFile "test.txt"; CallSendEmail "joe" "hello";
                  CallSystemCall "cd .."].
Proof.
  intros H1 H2. rewrite main_with_unfold. fold r1 r2.
  apply ErrorCode_ne_false_iff in H1. apply ErrorCode_ne_false_iff in H2.
  now rewrite H1, H2.
Qed.

(** The return value as a function of the two checked results alone. *)
Lemma main_with_value :
  value (main_with ops w) =
  if ErrorCode_ne r1 OK then 1 else if ErrorCode_ne r2 OK then 1 else 0.
Proof.
  rewrite main_with_unfold. fold r1 r2.
  destruct (ErrorCode_ne r1 OK); [reflexivity|].
  destruct (ErrorCode_ne r2 OK); reflexivity.
Qed.

End DriverCases.

(** ** The operations of the file *)

(** C4. For every text [fileName] and in every world, [OpenFile fileName]
    returns [OK] and leaves the world as it found it. *)
Theorem OpenFile_returns_OK {W : Type} (fileName : string_view) (w : W) :
  OpenFile fileName w = (OK, w).
Proof. reflexivity. Qed.

(** C5. For every pair of texts [sendto], [text] and in every world,
    [SendEmail sendto text] returns [OK] and leaves the world as it found
    it. *)
Theorem SendEmail_returns_OK {W : Type} (sendto text : string_view) (w : W) :
  SendEmail sendto text w = (OK, w).
Proof. reflexivity. Qed.

(** C6. For every text [text] and in every world, [SystemCall text] returns
    [OK] and leaves the world as it found it. *)
Theorem SystemCall_returns_OK {W : Type} (text : string_view) (w : W) :
  SystemCall text w = (OK, w).
Proof. reflexivity. Qed.

(** C9. Each of the three operations is a function of its inputs alone: two
    invocations on the same inputs return the same status whatever the
    worlds [w] and [w'] they run in (nothing is read from the world), and
    each invocation hands back the world unchanged (nothing is written), so
    that the status is all an invocation produces. *)
Theorem operations_pure {W : Type} (w w' : W) :
  (forall fileName,
      St.result (OpenFile fileName) w = St.result (OpenFile fileName) w' /\
      St.after (OpenFile fileName) w = w) /\
  (forall sendto text,
      St.result (SendEmail sendto text) w = St.result (SendEmail sendto text) w' /\
      St.after (SendEmail sendto text) w = w) /\
  (forall text,
      St.result (SystemCall text) w = St.result (SystemCall text) w' /\
      St.after (SystemCall text) w = w).
Proof.
  repeat split.
Qed.

(** ** The driver over any operations *)

(** C1. Whatever the three operations do, [main_with] returns 1 exactly
    when the result of [OpenFile] or that of [SendEmail] differs from [OK],
    and 0 exactly when both are [OK].  A result other than [OK] ends the run
    on the spot: the outcome is the value 1, the world as the failing
    operation left it, and no call after the failing one. *)
Theorem main_exit_status {W : Type} (ops : Ops W) (w : W) :
  (value (main_with ops w) = 1 <->
     St.result (step_OpenFile ops) w <> OK \/
     St.result (step_SendEmail ops) w <> OK) /\
  (value (main_with ops w) = 0 <->
     St.result (step_OpenFile ops) w = OK /\
     St.result (step_SendEmail ops) w = OK) /\
  (St.result (step_OpenFile ops) w <> OK ->
     main_with ops w =
     mkOutcome 1 (St.after (step_OpenFile ops) w) [CallOpenFile "test.txt"]) /\
  (St.result (step_OpenFile ops) w = OK ->
   St.result (step_SendEmail ops) w <> OK ->
     main_with ops w =
     mkOutcome 1 (St.after (step_SendEmail ops) w)
       [CallOpenFile "test.txt"; CallSendEmail "joe" "hello"]).
Proof.
  split; [|split; [|split]].
  - rewrite main_with_value.
    destruct (ErrorCode_ne (St.result (step_OpenFile ops) w) OK) eqn:E1.
    + apply ErrorCode_ne_true_iff in E1. tauto.
    + apply ErrorCode_ne_false_iff in E1.
      destruct (ErrorCode_ne (St.result (step_SendEmail ops) w) OK) eqn:E2.
      * apply ErrorCode_ne_true_iff in E2. tauto.
      * apply ErrorCode_ne_false_iff in E2.
        split; [discriminate | intros [H | H]; contradiction].
  - rewrite main_with_value.
    destruct (ErrorCode_ne (St.result (step_OpenFile ops) w) OK) eqn:E1.
    + apply ErrorCode_ne_true_iff in E1.
      split; [discriminate | intros [H _]; contradiction].
    + apply ErrorCode_ne_false_iff in E1.
      destruct (ErrorCode_ne (St.result (step_SendEmail ops) w) OK) eqn:E2.
      * apply ErrorCode_ne_true_iff in E2.
        split; [discriminate | intros [_ H]; contradiction].
      * apply ErrorCode_ne_false_iff in E2. tauto.
  - apply main_with_OpenFile_fails.
  - apply main_with_SendEmail_fails.
Qed.

(** A run in which [OpenFile] fails, and one in which [SendEmail] does. *)
Lemma main_exit_status_witness :
  main_with Scenario.open_fails fresh_process =
    mkOutcome 1 (mkProcess EmptyString "test.txt") [CallOpenFile "test.txt"] /\
  main_with Scenario.send_fails fresh_process =
    mkOutcome 1 fresh_process
      [CallOpenFile "test.txt"; CallSendEmail "joe" "hello"].
Proof.
  split.
  - destruct (main_exit_status Scenario.open_fails fresh_process)
      as (_ & _ & H & _).
    apply H. vm_compute. discriminate.
  - destruct (main_exit_status Scenario.send_fails fresh_process)
      as (_ & _ & _ & H).
    apply H; vm_compute; [reflexivity | discriminate].
Defined.

(** C7. The result of [SystemCall] is not examined.  Take any two tables of
    operations, on any two worlds: if the two runs get the same result from
    [OpenFile] and the same result from [SendEmail], they return the same
    value, whatever their [SystemCall]s return or do. *)
Theorem main_ignores_SystemCall {W W' : Type}
    (ops : Ops W) (ops' : Ops W') (w : W) (w' : W')
    (HOpenFile : St.result (step_OpenFile ops) w = St.result (step_OpenFile ops') w')
    (HSendEmail : St.result (step_SendEmail ops) w = St.result (step_SendEmail ops') w') :
  value (main_with ops w) = value (main_with ops' w').
Proof.
  rewrite !main_with_value. now rewrite HOpenFile, HSendEmail.
Qed.

(** The operations of the file against a table whose [SystemCall] fails
    and writes to [stdout]: both runs return 0. *)
Lemma main_ignores_SystemCall_witness :
  St.result (step_SystemCall (stubs Process)) fresh_process = OK /\
  St.result (step_SystemCall Scenario.system_fails) fresh_process = System /\
  value (main_with (stubs Process) fresh_process) =
  value (main_with Scenario.system_fails fresh_process).
Proof.
  split; [reflexivity | split; [reflexivity |]].
  apply (main_ignores_SystemCall (stubs Process) Scenario.system_fails
           fresh_process fresh_process); reflexivity.
Defined.

(** C8. If [OpenFile "test.txt"] returns [OK], the run does not stop there:
    its second call is [SendEmail "joe" "hello"].  If that call returns
    [OK] as well, the run does not stop there either: it goes on to
    [SystemCall "cd .."] and leaves by the end of [main], with 0. *)
Theorem main_proceeds_on_OK {W : Type} (ops : Ops W) (w : W)
    (HOpenFile : St.result (step_OpenFile ops) w = OK) :
  (exists rest,
      calls (main_with ops w) =
      CallOpenFile "test.txt" :: CallSendEmail "joe" "hello" :: rest) /\
  (St.result (step_SendEmail ops) w = OK ->
   main_with ops w =
   mkOutcome 0 (St.after (step_SystemCall ops) w)
     [CallOpenFile "test.txt"; CallSendEmail "joe" "hello";
      CallSystemCall "cd .."]).
Proof.
  split.
  - rewrite main_with_unfold.
    apply ErrorCode_ne_false_iff in HOpenFile. rewrite HOpenFile.
    destruct (ErrorCode_ne (St.result (step_SendEmail ops) w) OK);
      eexists; reflexivity.
  - intros HSendEmail. now apply main_with_all_OK.
Qed.

(** A run in which [OpenFile] succeeds and [SendEmail] fails, and one in
    which both succeed. *)
Lemma main_proceeds_on_OK_witness :
  (exists rest,
      calls (main_with Scenario.send_fails fresh_process) =
      CallOpenFile "test.txt" :: CallSendEmail "joe" "hello" :: rest) /\
  main_with Scenario.system_fails fresh_process =
  mkOutcome 0 (mkProcess "cd .." EmptyString)
    [CallOpenFile "test.txt"; CallSendEmail "joe" "hello";
     CallSystemCall "cd .."].
Proof.
  split.
  - apply (main_proceeds_on_OK Scenario.send_fails fresh_process).
    reflexivity.
  - apply (main_proceeds_on_OK Scenario.system_fails fresh_process);
      reflexivity.
Defined.

(** ** The driver of the file *)

(** C2. [main] takes no arguments; run from any state [p] of the process, it
    returns 0 and leaves the process as it was, so nothing is written to
    either stream; started on a process that has written nothing, it ends
    with both streams empty. *)
Theorem main_returns_0_silently (p : Process) :
  value (main p) = 0 /\
  world (main p) = p /\
  stdout (world (main fresh_process)) = EmptyString /\
  stderr (world (main fresh_process)) = EmptyString.
Proof.
  repeat split.
Qed.

(** C10. With the operations of the file, both checks in [main] come out
    false in every run, the calls made are [OpenFile], [SendEmail],
    [SystemCall], once each and in that order, and the value returned is
    never 1: neither [return 1] is reached. *)
Theorem main_never_returns_1 {W : Type} (w : W) :
  ErrorCode_ne (St.result (step_OpenFile (stubs W)) w) OK = false /\
  ErrorCode_ne (St.result (step_SendEmail (stubs W)) w) OK = false /\
  calls (main w) =
    [CallOpenFile "test.txt"; CallSendEmail "joe" "hello";
     CallSystemCall "cd .."] /\
  (forall op, invocations op (calls (main w)) = 1%nat) /\
  value (main w) <> 1.
Proof.
  split; [reflexivity | split; [reflexivity | split; [reflexivity | split]]].
  - intros op. destruct op; reflexivity.
  - discriminate.
Qed.

(** * Further properties of the code *)

(** ** The status type *)


(** ** The driver over any operations *)

(** Closes a goal from an impossible membership or equation among the
    hypotheses. *)
Ltac log_facts :=
  repeat match goal with
         | H : In _ (_ :: _) |- _ => destruct H as [H | H]
         | H : In _ [] |- _ => destruct H
         | H : _ \/ _ |- _ => destruct H as [H | H]
         | H : False |- _ => destruct H
         | H : _ = _ |- _ => discriminate H
         end.

(** X2. Whatever the operations do, [main_with] returns 0 or 1 and nothing
    else. *)
Theorem main_with_value_range {W : Type} (ops : Ops W) (w : W) :
  value (main_with ops w) = 0 \/ value (main_with ops w) = 1.
Proof.
  rewrite main_with_value.
  destruct (ErrorCode_ne (St.result (step_OpenFile ops) w) OK);
    [right; reflexivity|].
  destruct (ErrorCode_ne (St.result (step_SendEmail ops) w) OK);
    [right | left]; reflexivity.
Qed.

(** X3. Whatever the operations return, the calls of a run are a non-empty
    initial part of [OpenFile "test.txt"], [SendEmail "joe" "hello"],
    [SystemCall "cd .."]: the order and the arguments are fixed, [OpenFile]
    is called exactly once, and no operation is called twice. *)
Theorem main_with_calls_prefix {W : Type} (ops : Ops W) (w : W) :
  (exists n, (1 <= n <= 3)%nat /\
             calls (main_with ops w) = firstn n program_calls) /\
  invocations OpOpenFile (calls (main_with ops w)) = 1%nat /\
  (forall op, (invocations op (calls (main_with ops w)) <= 1)%nat).
Proof.
  rewrite main_with_unfold.
  destruct (ErrorCode_ne (St.result (step_OpenFile ops) w) OK);
    [| destruct (ErrorCode_ne (St.result (step_SendEmail ops) w) OK)];
    (split; [| split; [reflexivity | intros op; destruct op; unfold invocations; simpl; lia]]).
  - exists 1%nat. split; [lia | reflexivity].
  - exists 2%nat. split; [lia | reflexivity].
  - exists 3%nat. split; [lia | reflexivity].
Qed.

(** X4. [SystemCall] is called exactly in the runs that return 0, and then
    as the last call; a run that returns 1 never reaches it. *)
Theorem main_with_SystemCall_iff_0 {W : Type} (ops : Ops W) (w : W) :
  (In (CallSystemCall "cd ..") (calls (main_with ops w)) <->
   value (main_with ops w) = 0) /\
  (invocations OpSystemCall (calls (main_with ops w)) = 0%nat <->
   value (main_with ops w) = 1) /\
  (invocations OpSendEmail (calls (main_with ops w)) = 1%nat <->
   St.result (step_OpenFile ops) w = OK).
Proof.
  rewrite main_with_unfold.
  destruct (ErrorCode_ne (St.result (step_OpenFile ops) w) OK) eqn:E1;
    [ apply ErrorCode_ne_true_iff in E1
    | apply ErrorCode_ne_false_iff in E1;
      destruct (ErrorCode_ne (St.result (step_SendEmail ops) w) OK) ];
    unfold invocations; simpl;
    (split; [| split]); split; intros H; log_facts;
    try reflexivity; try assumption; try contradiction.
  right. right. left. reflexivity.
Qed.

(** X5. The driver has no effect of its own: the world a run ends in is the
    world reached by making the logged calls one after the other, starting
    from the initial world. *)
Theorem main_with_world_replay {W : Type} (ops : Ops W) (w : W) :
  world (main_with ops w) = replay ops (calls (main_with ops w)) w.
Proof.
  rewrite main_with_unfold.
  destruct (ErrorCode_ne (St.result (step_OpenFile ops) w) OK);
    [| destruct (ErrorCode_ne (St.result (step_SendEmail ops) w) OK)];
    reflexivity.
Qed.

(** X6. A property of the world that each of the three operations keeps is
    kept by the whole run, whichever way the run ends. *)
Theorem main_with_preserves {W : Type} (ops : Ops W) (P : W -> Prop)
    (HOpenFile : forall fileName v, P v -> P (St.after (opOpenFile ops fileName) v))
    (HSendEmail : forall sendto text v,
        P v -> P (St.after (opSendEmail ops sendto text) v))
    (HSystemCall : forall text v, P v -> P (St.after (opSystemCall ops text) v))
    (w : W) (Hw : P w) :
  P (world (main_with ops w)).
Proof.
  assert (H1 : P (St.after (step_OpenFile ops) w))
    by (apply HOpenFile; exact Hw).
  assert (H2 : P (St.after (step_SendEmail ops) w))
    by (apply HSendEmail; exact H1).
  assert (H3 : P (St.after (step_SystemCall ops) w))
    by (apply HSystemCall; exact H2).
  rewrite main_with_unfold.
  destruct (ErrorCode_ne (St.result (step_OpenFile ops) w) OK);
    [| destruct (ErrorCode_ne (St.result (step_SendEmail ops) w) OK)];
    simpl; assumption.
Qed.

(** With a [SystemCall] that writes to [stdout] only, a run leaves [stderr]
    empty. *)
Lemma main_with_preserves_witness :
  stderr (world (main_with Scenario.system_fails fresh_process)) = EmptyString.
Proof.
  apply (main_with_preserves Scenario.system_fails
           (fun p => stderr p = EmptyString)).
  - intros fileName v Hv. simpl. exact Hv.
  - intros sendto text v Hv. simpl. exact Hv.
  - intros text v Hv. simpl. exact Hv.
  - reflexivity.
Defined.

(** X7. The driver tells [OK] from not [OK] and nothing more: two runs in
    which [OpenFile] succeeds in both or fails in both, and in which, when
    it succeeds, [SendEmail] succeeds in both or fails in both, return the
    same value, whichever failure codes are reported. *)
Theorem main_with_failure_codes_alike {W W' : Type}
    (ops : Ops W) (ops' : Ops W') (w : W) (w' : W')
    (HOpenFile : St.result (step_OpenFile ops) w = OK <->
                 St.result (step_OpenFile ops') w' = OK)
    (HSendEmail : St.result (step_OpenFile ops) w = OK ->
                  (St.result (step_SendEmail ops) w = OK <->
                   St.result (step_SendEmail ops') w' = OK)) :
  value (main_with ops w) = value (main_with ops' w').
Proof.
  rewrite !main_with_value.
  destruct (ErrorCode_ne (St.result (step_OpenFile ops) w) OK) eqn:E1,
    (ErrorCode_ne (St.result (step_OpenFile ops') w') OK) eqn:E1';
    try reflexivity.
  - apply ErrorCode_ne_true_iff in E1. apply ErrorCode_ne_false_iff in E1'.
    elim E1. now apply HOpenFile.
  - apply ErrorCode_ne_false_iff in E1. apply ErrorCode_ne_true_iff in E1'.
    elim E1'. now apply HOpenFile.
  - apply ErrorCode_ne_false_iff in E1. specialize (HSendEmail E1).
    destruct (ErrorCode_ne (St.result (step_SendEmail ops) w) OK) eqn:E2,
      (ErrorCode_ne (St.result (step_SendEmail ops') w') OK) eqn:E2';
      try reflexivity.
    + apply ErrorCode_ne_true_iff in E2. apply ErrorCode_ne_false_iff in E2'.
      elim E2. now apply HSendEmail.
    + apply ErrorCode_ne_false_iff in E2. apply ErrorCode_ne_true_iff in E2'.
      elim E2'. now apply HSendEmail.
Qed.

(** An [OpenFile] reporting [FileIssue] against one reporting [Fatal]. *)
Lemma main_with_failure_codes_alike_witness :
  St.result (step_OpenFile Scenario.open_fails) fresh_process = FileIssue /\
  St.result (step_OpenFile Failures.open_crashes) fresh_process = Fatal /\
  value (main_with Scenario.open_fails fresh_process) =
  value (main_with Failures.open_crashes fresh_process).
Proof.
  split; [reflexivity | split; [reflexivity |]].
  apply (main_with_failure_codes_alike Scenario.open_fails
           Failures.open_crashes fresh_process fresh_process).
  - vm_compute. split; intros H; discriminate H.
  - vm_compute. intros H. discriminate H.
Defined.
